(** * The weather dashboard

    A shallow embedding of [src/components/WeatherDashboard.tsx]: the
    scoring functions [calculateProbability] and [getSeverity], the score
    derivation inside [fetchWeather], and the component's other functions.

    The code is embedded twice.  In [Binary64] a JavaScript number is the
    kernel's binary64 float, so every sum, difference, product and
    quotient rounds and overflows as the code's does; what is said about
    the value of an interpolated score is stated there.  In [JS] and
    [WeatherDashboard] a number is an exact rational extended with [NaN]
    and the two infinities: comparisons, guards and control flow are the
    code's, finite arithmetic is exact and the two zeros are one.  That
    embedding carries the properties that comparisons decide, and bounds
    that rounding does not move. *)

From Stdlib Require Import ZArith QArith Qround Qminmax Lqa Lia Bool String List.
From Stdlib Require Floats Uint63.

Local Open Scope Q_scope.

(** ** JavaScript numbers as exact rationals, and the operators the
    component uses *)

Module JS.

Inductive number : Type :=
| NaN
| NegInf
| PosInf
| Fin (q : Q).

(** The values a reading taken from the decoded API response can have. *)
Inductive value : Type :=
| Null
| Undefined
| Num (n : number).

Definition ToNumber (v : value) : number :=
  match v with
  | Null => Fin 0
  | Undefined => NaN
  | Num n => n
  end.

(** [v === null] *)
Definition strict_eq_null (v : value) : bool :=
  match v with
  | Null => true
  | _ => false
  end.

(** The global [isNaN]: coerces with [ToNumber] first. *)
Definition isNaN (v : value) : bool :=
  match ToNumber v with
  | NaN => true
  | _ => false
  end.

Definition Qlt_bool (a b : Q) : bool := negb (Qle_bool b a).

(** [a <= b] *)
Definition le (a b : number) : bool :=
  match a, b with
  | NaN, _ | _, NaN => false
  | NegInf, _ => true
  | _, PosInf => true
  | PosInf, _ => false
  | Fin _, NegInf => false
  | Fin x, Fin y => Qle_bool x y
  end.

(** [a < b] *)
Definition lt (a b : number) : bool :=
  match a, b with
  | NaN, _ | _, NaN => false
  | _, NegInf => false
  | PosInf, _ => false
  | NegInf, _ => true
  | Fin _, PosInf => true
  | Fin x, Fin y => Qlt_bool x y
  end.

(** [a >= b] and [a > b] *)
Definition ge (a b : number) : bool := le b a.
Definition gt (a b : number) : bool := lt b a.

Definition opp (a : number) : number :=
  match a with
  | NaN => NaN
  | NegInf => PosInf
  | PosInf => NegInf
  | Fin x => Fin (- x)
  end.

(** [a + b] *)
Definition add (a b : number) : number :=
  match a, b with
  | NaN, _ | _, NaN => NaN
  | PosInf, NegInf | NegInf, PosInf => NaN
  | PosInf, _ | _, PosInf => PosInf
  | NegInf, _ | _, NegInf => NegInf
  | Fin x, Fin y => Fin (x + y)
  end.

(** [a - b] *)
Definition sub (a b : number) : number :=
  match a, b with
  | Fin x, Fin y => Fin (x - y)
  | _, _ => add a (opp b)
  end.

(** The infinity carrying the sign of [s] times the sign of [x];
    [NaN] when [x] is zero. *)
Definition inf_times (s : bool) (x : Q) : number :=
  match x ?= 0 with
  | Eq => NaN
  | Gt => if s then PosInf else NegInf
  | Lt => if s then NegInf else PosInf
  end.

(** [a * b] *)
Definition mul (a b : number) : number :=
  match a, b with
  | NaN, _ | _, NaN => NaN
  | Fin x, Fin y => Fin (x * y)
  | PosInf, Fin y | Fin y, PosInf => inf_times true y
  | NegInf, Fin y | Fin y, NegInf => inf_times false y
  | PosInf, PosInf | NegInf, NegInf => PosInf
  | PosInf, NegInf | NegInf, PosInf => NegInf
  end.

(** [a / b] *)
Definition div (a b : number) : number :=
  match a, b with
  | NaN, _ | _, NaN => NaN
  | Fin x, Fin y =>
      if Qeq_bool y 0 then inf_times true x else Fin (x / y)
  | Fin _, _ => Fin 0
  | PosInf, Fin y => if Qlt_bool y 0 then NegInf else PosInf
  | NegInf, Fin y => if Qlt_bool y 0 then PosInf else NegInf
  | _, _ => NaN
  end.

(** [Math.round]: the nearest integer, a tie going up. *)
Definition Math_round (a : number) : number :=
  match a with
  | Fin x => Fin (inject_Z (Qfloor (x + (1 # 2))))
  | _ => a
  end.

(** [Math.min] of two arguments. *)
Definition Math_min (a b : number) : number :=
  match a, b with
  | NaN, _ | _, NaN => NaN
  | _, _ => if le a b then a else b
  end.

End JS.

Import JS.

(** ** The component *)

Module WeatherDashboard.

Record Thresholds : Type := { min : number; max : number }.

Inductive Severity : Type :=
| low
| medium
| high.

Definition calculateProbability
  (value : JS.value) (thresholds : Thresholds)
  (baseProb maxProb : number) (higherValuesGiveHigherProb : bool) : number :=
  if strict_eq_null value || isNaN value then baseProb
  else
    let value := ToNumber value in
    if higherValuesGiveHigherProb then
      if le value (min thresholds) then baseProb
      else if ge value (max thresholds) then maxProb
      else
        let probability :=
          add baseProb
            (mul (div (sub value (min thresholds))
                      (sub (max thresholds) (min thresholds)))
                 (sub maxProb baseProb)) in
        Math_round probability
    else
      if le value (min thresholds) then maxProb
      else if ge value (max thresholds) then baseProb
      else
        let probability :=
          sub maxProb
            (mul (div (sub value (min thresholds))
                      (sub (max thresholds) (min thresholds)))
                 (sub maxProb baseProb)) in
        Math_round probability.

Definition getSeverity (probability : number) : Severity :=
  if ge probability (Fin 70) then high
  else if ge probability (Fin 40) then medium
  else low.

(** One entry of the [processed] array (the icon and the description
    text are presentation only and left out). *)
Record WeatherData : Type := {
  condition : string;
  probability : number;
  severity : Severity;
  actualValue : option JS.value
}.

(** The six scores [fetchWeather] derives from the four daily readings. *)
Record Scores : Type := {
  hotProb : number;
  coldProb : number;
  wetProb : number;
  windyProb : number;
  stormProb : number;
  uncomfortableProb : number
}.

Definition fetchWeather_scores (maxTemp minTemp rain wind : JS.value) : Scores :=
  let hotProb :=
    calculateProbability maxTemp {| min := Fin 25; max := Fin 40 |} (Fin 10) (Fin 95) true in
  let coldProb :=
    calculateProbability minTemp {| min := Fin (-5); max := Fin 10 |} (Fin 10) (Fin 95) false in
  let wetProb :=
    calculateProbability rain {| min := Fin 1; max := Fin 25 |} (Fin 10) (Fin 95) true in
  let windyProb :=
    calculateProbability wind {| min := Fin 20; max := Fin 60 |} (Fin 10) (Fin 95) true in
  let stormProb :=
    calculateProbability (Num (mul (ToNumber rain) (ToNumber wind)))
      {| min := Fin 50; max := Fin 500 |} (Fin 5) (Fin 80) true in
  let uncomfortableProb :=
    Math_min (Fin 99)
      (Math_round
         (add (mul (add hotProb wetProb) (Fin (6 # 10)))
              (if gt windyProb (Fin 70) then Fin 10 else Fin 0))) in
  {| hotProb := hotProb; coldProb := coldProb; wetProb := wetProb;
     windyProb := windyProb; stormProb := stormProb;
     uncomfortableProb := uncomfortableProb |}.

Definition fetchWeather_processed (maxTemp minTemp rain wind : JS.value)
  : list WeatherData :=
  let s := fetchWeather_scores maxTemp minTemp rain wind in
  let entry (c : string) (p : number) (a : option JS.value) :=
    {| condition := c; probability := p; severity := getSeverity p;
       actualValue := a |} in
  (entry "Sunny"%string (hotProb s) (Some maxTemp)
   :: entry "Cold"%string (coldProb s) (Some minTemp)
   :: entry "Rainy"%string (wetProb s) (Some rain)
   :: entry "Wind"%string (windyProb s) (Some wind)
   :: entry "Cloudy"%string (stormProb s)
        (Some (Num (div (mul (ToNumber rain) (ToNumber wind)) (Fin 10))))
   :: entry "Uncomfortable"%string (uncomfortableProb s) None
   :: nil)%list.

End WeatherDashboard.

Import WeatherDashboard.

(** ** The same code over binary64

    [calculateProbability], [getSeverity] and the score derivation once
    more, with a JavaScript number as the kernel's binary64 float: every
    operation rounds and overflows as the code's does. *)

Module Binary64.

Import PrimFloat SpecFloat FloatOps.
Local Open Scope float_scope.
#[local] Set Warnings "-inexact-float".

Inductive value : Type :=
| Null
| Undefined
| Num (n : float).

Definition ToNumber (v : value) : float :=
  match v with
  | Null => 0
  | Undefined => nan
  | Num n => n
  end.

(** [v === null] *)
Definition strict_eq_null (v : value) : bool :=
  match v with
  | Null => true
  | _ => false
  end.

(** The global [isNaN]: coerces with [ToNumber] first. *)
Definition isNaN (v : value) : bool := is_nan (ToNumber v).

(** The float of an integer below [2^63] in magnitude; exact up to
    [2^53]. *)
Definition of_Z (z : Z) : float :=
  match z with
  | Z0 => 0
  | Zpos _ => of_uint63 (Uint63.of_Z z)
  | Zneg _ => - of_uint63 (Uint63.of_Z (- z))
  end.

(** [Math.round]: the nearest integer, a tie going up; a float with a
    nonnegative exponent is an integer already, and a result of zero keeps
    the sign of the argument. *)
Definition Math_round (x : float) : float :=
  match Prim2SF x with
  | S754_finite s m e =>
      if (0 <=? e)%Z then x
      else
        let n := if s then Zneg m else Zpos m in
        let r := ((2 * n + 2 ^ (- e)) / 2 ^ (- e + 1))%Z in
        if (r =? 0)%Z then (if s then neg_zero else 0) else of_Z r
  | _ => x
  end.

(** [Math.min] of two arguments. *)
Definition Math_min (a b : float) : float :=
  if is_nan a || is_nan b then nan
  else if a <? b then a
  else if b <? a then b
  else if get_sign a then a else b.

Record Thresholds : Type := { min : float; max : float }.

Definition calculateProbability
  (value : value) (thresholds : Thresholds)
  (baseProb maxProb : float) (higherValuesGiveHigherProb : bool) : float :=
  if strict_eq_null value || isNaN value then baseProb
  else
    let value := ToNumber value in
    if higherValuesGiveHigherProb then
      if value <=? min thresholds then baseProb
      else if max thresholds <=? value then maxProb
      else
        let probability :=
          baseProb
          + ((value - min thresholds) / (max thresholds - min thresholds))
            * (maxProb - baseProb) in
        Math_round probability
    else
      if value <=? min thresholds then maxProb
      else if max thresholds <=? value then baseProb
      else
        let probability :=
          maxProb
          - ((value - min thresholds) / (max thresholds - min thresholds))
            * (maxProb - baseProb) in
        Math_round probability.

Definition getSeverity (probability : float) : Severity :=
  if 70 <=? probability then high
  else if 40 <=? probability then medium
  else low.

Record Scores : Type := {
  hotProb : float;
  coldProb : float;
  wetProb : float;
  windyProb : float;
  stormProb : float;
  uncomfortableProb : float
}.

Definition fetchWeather_scores (maxTemp minTemp rain wind : value) : Scores :=
  let hotProb :=
    calculateProbability maxTemp {| min := 25; max := 40 |} 10 95 true in
  let coldProb :=
    calculateProbability minTemp {| min := -5; max := 10 |} 10 95 false in
  let wetProb :=
    calculateProbability rain {| min := 1; max := 25 |} 10 95 true in
  let windyProb :=
    calculateProbability wind {| min := 20; max := 60 |} 10 95 true in
  let stormProb :=
    calculateProbability (Num (ToNumber rain * ToNumber wind))
      {| min := 50; max := 500 |} 5 80 true in
  let uncomfortableProb :=
    Math_min 99
      (Math_round
         ((hotProb + wetProb) * 0.6 + (if 70 <? windyProb then 10 else 0))) in
  {| hotProb := hotProb; coldProb := coldProb; wetProb := wetProb;
     windyProb := windyProb; stormProb := stormProb;
     uncomfortableProb := uncomfortableProb |}.

(** The primitive score as the specification names it. *)
Definition score (value : value) (lo hi baseScore maxScore : float)
  (ascending : bool) : float :=
  calculateProbability value {| min := lo; max := hi |} baseScore maxScore
    ascending.

(** [stormRisk] as the specification words it. *)
Definition spec_stormRisk (precipitation windSpeed : value) : float :=
  score (Num (ToNumber precipitation * ToNumber windSpeed)) 50 500 5 80 true.

(** [discomfortIndex] as the specification words it. *)
Definition spec_discomfortIndex (hotScore wetScore windyScore : float) : float :=
  Math_min 99
    (Math_round
       ((hotScore + wetScore) * 0.6 + (if 70 <? windyScore then 10 else 0))).

(** The discomfort index of two integer scores in integer arithmetic:
    six tenths of the sum rounded half up, the bonus, and the cap. *)
Definition discomfort_integer (hot wet : Z) (bonus : bool) : Z :=
  Z.min 99 ((6 * (hot + wet) + 5) / 10 + (if bonus then 10 else 0)).

(** Whether the binary64 discomfort index of the integer scores [hot]
    and [wet] is [discomfort_integer], with and without the bonus. *)
Definition discomfort_agrees (hot wet : Z) : bool :=
  Leibniz.eqb (spec_discomfortIndex (of_Z hot) (of_Z wet) 71)
              (of_Z (discomfort_integer hot wet true))
  && Leibniz.eqb (spec_discomfortIndex (of_Z hot) (of_Z wet) 70)
                 (of_Z (discomfort_integer hot wet false)).

(** The integers from [lo], [n] of them. *)
Definition integers_from (lo : Z) (n : nat) : list Z :=
  map (fun k => (lo + Z.of_nat k)%Z) (seq 0 n).

(** The readings [k / 10] for [k] from [lo] on, [n] of them. *)
Definition tenths (lo : Z) (n : nat) : list float :=
  map (fun k => of_Z k / 10) (integers_from lo n).

Fixpoint nondecreasing (l : list float) : bool :=
  match l with
  | a :: (c :: _) as rest => (a <=? c) && nondecreasing rest
  | _ => true
  end.

(** Every score of the list is an integer from [b] to [m]. *)
Definition integers_within (b m : float) (l : list float) : bool :=
  forallb (fun s => (b <=? s) && (s <=? m) && Leibniz.eqb (Math_round s) s) l.

(** The scores of one call of the dashboard over a list of readings. *)
Definition scores_over (lo hi b m : float) (asc : bool) (l : list float)
  : list float :=
  map (fun v => score (Num v) lo hi b m asc) l.

End Binary64.

(** ** Notions the properties are stated with *)

Module Scoring.

(** [round_half_up q] is the integer [Math.round] yields on a finite [q]. *)
Definition round_half_up (q : Q) : Z := Qfloor (q + (1 # 2)).





(** The order [low < medium < high] of the bands. *)
Definition Severity_rank (s : Severity) : nat :=
  match s with
  | low => 0
  | medium => 1
  | high => 2
  end.

Definition Severity_le (s1 s2 : Severity) : Prop :=
  (Severity_rank s1 <= Severity_rank s2)%nat.

(** [discomfortIndex] as the specification words it. *)
Definition spec_discomfortIndex (hotScore wetScore windyScore : Q) : Q :=
  Qmin 99
    (inject_Z (round_half_up
                 ((hotScore + wetScore) * (6 # 10)
                  + (if Qlt_bool 70 windyScore then 10 else 0)))).

End Scoring.

Import Scoring.

(** ** The rest of the component: charts, comparison, forecast *)

From Stdlib Require Import Ascii.

(** JavaScript strings and arrays, as far as the component uses them. *)
Module JSString.

Local Open Scope string_scope.

Fixpoint drop (n : nat) (s : string) : string :=
  match n, s with
  | O, _ => s
  | S n', String _ s' => drop n' s'
  | S _, EmptyString => EmptyString
  end.

(** [s.replace(pattern, replacement)] with a string pattern: the first
    occurrence only. *)
Fixpoint replace_first (pattern replacement s : string) : string :=
  if String.prefix pattern s
  then replacement ++ drop (String.length pattern) s
  else
    match s with
    | EmptyString => EmptyString
    | String c s' => String c (replace_first pattern replacement s')
    end.

(** [s.replace(/c/g, replacement)] for a one-character pattern: every
    occurrence. *)
Fixpoint replace_all_char (c : Ascii.ascii) (replacement s : string) : string :=
  match s with
  | EmptyString => EmptyString
  | String d s' =>
      (if Ascii.eqb d c then replacement else String d EmptyString)
      ++ replace_all_char c replacement s'
  end.


(** [arr[index]]: [undefined] past the end. *)
Definition index (arr : list value) (i : nat) : value := nth i arr Undefined.

End JSString.

(** A reading without data: [null], [undefined] or [NaN], the values the
    guard of [calculateProbability] stops. *)
Definition missing (v : JS.value) : bool := strict_eq_null v || isNaN v.

Module Charts.

Import JSString.
Local Open Scope string_scope.

Definition getProbabilityColor (probability : number) : string :=
  if ge probability (Fin 70) then "hsl(0, 100%, 65%)"
  else if ge probability (Fin 50) then "hsl(30, 100%, 65%)"
  else if ge probability (Fin 30) then "hsl(200, 100%, 65%)"
  else "hsl(160, 100%, 65%)".

Record ChartDatum : Type := {
  name : string;
  probability : number;
  fill : string;
  actualValue : option JS.value
}.

Definition chartData (weatherData : list WeatherData) : list ChartDatum :=
  map (fun item =>
         {| name := replace_first "Very " "" (WeatherDashboard.condition item);
            probability := WeatherDashboard.probability item;
            fill := getProbabilityColor (WeatherDashboard.probability item);
            actualValue := WeatherDashboard.actualValue item |})
      weatherData.

(** How warm a bar colour is: the hue falls from 200 and 160 to 30 and 0
    as the score passes 30, 50 and 70. *)
Definition colour_rank (colour : string) : nat :=
  if String.eqb colour "hsl(0, 100%, 65%)" then 3
  else if String.eqb colour "hsl(30, 100%, 65%)" then 2
  else if String.eqb colour "hsl(200, 100%, 65%)" then 1
  else 0.

End Charts.

Module Comparison.

Local Open Scope string_scope.

(** The [processedWeatherData] array built by [onLocationSearch] of the
    comparison panel from the four readings of the other location. *)
Definition processedWeatherData (maxTemp minTemp rain wind : JS.value)
  : list WeatherData :=
  {| condition := "Sunny";
     probability :=
       calculateProbability maxTemp {| min := Fin 25; max := Fin 40 |}
         (Fin 10) (Fin 95) true;
     severity :=
       getSeverity
         (calculateProbability maxTemp {| min := Fin 25; max := Fin 40 |}
            (Fin 10) (Fin 95) true);
     actualValue := Some maxTemp |}
  :: {| condition := "Cold";
        probability :=
          calculateProbability minTemp {| min := Fin (-5); max := Fin 10 |}
            (Fin 10) (Fin 95) false;
        severity :=
          getSeverity
            (calculateProbability minTemp {| min := Fin (-5); max := Fin 10 |}
               (Fin 10) (Fin 95) false);
        actualValue := Some minTemp |}
  :: {| condition := "Rainy";
        probability :=
          calculateProbability rain {| min := Fin 1; max := Fin 25 |}
            (Fin 10) (Fin 95) true;
        severity :=
          getSeverity
            (calculateProbability rain {| min := Fin 1; max := Fin 25 |}
               (Fin 10) (Fin 95) true);
        actualValue := Some rain |}
  :: {| condition := "Wind";
        probability :=
          calculateProbability wind {| min := Fin 20; max := Fin 60 |}
            (Fin 10) (Fin 95) true;
        severity :=
          getSeverity
            (calculateProbability wind {| min := Fin 20; max := Fin 60 |}
               (Fin 10) (Fin 95) true);
        actualValue := Some wind |}
  :: nil.

End Comparison.

Module Forecast.

Import JSString.
Local Open Scope string_scope.

(** [data.daily] of the forecast response; a key the response lacks is
    [None]. *)
Record Daily : Type := {
  time : option (list string);
  temperature_2m_max : option (list JS.value);
  temperature_2m_min : option (list JS.value);
  precipitation_sum : option (list JS.value);
  windspeed_10m_max : option (list JS.value)
}.

(** One forecast day; [date] is the string handed to [new Date]. *)
Record ForecastDay : Type := {
  date : string;
  maxTemp : JS.value;
  minTemp : JS.value;
  precipitation : JS.value;
  windSpeed : JS.value;
  condition : string
}.

(** The nested conditional that labels a day. *)
Definition dayCondition (maxTemp minTemp precipitation : JS.value) : string :=
  if gt (ToNumber maxTemp) (Fin 25) then "Hot"
  else if lt (ToNumber minTemp) (Fin 5) then "Cold"
  else if gt (ToNumber precipitation) (Fin 5) then "Rainy"
  else "Clear".

(** [arr[index]] on a key of [data.daily]: reading an index of a missing
    array throws, which is [None] here. *)
Definition at_index (arr : option (list JS.value)) (i : nat) : option JS.value :=
  match arr with
  | Some a => Some (index a i)
  | None => None
  end.

(** The callback of [data.daily.time.map]; [None] when it throws. *)
Definition forecastDay (daily : Daily) (date : string) (i : nat)
  : option ForecastDay :=
  match at_index (temperature_2m_max daily) i,
        at_index (temperature_2m_min daily) i,
        at_index (precipitation_sum daily) i,
        at_index (windspeed_10m_max daily) i with
  | Some tmax, Some tmin, Some rain, Some wind =>
      Some {| date := date; maxTemp := tmax; minTemp := tmin;
              precipitation := rain; windSpeed := wind;
              condition := dayCondition tmax tmin rain |}
  | _, _, _, _ => None
  end.

(** [Array.prototype.map] with the index, stopping at the first throw. *)
Fixpoint map_days (daily : Daily) (dates : list string) (i : nat)
  : option (list ForecastDay) :=
  match dates with
  | nil => Some nil
  | d :: rest =>
      match forecastDay daily d i with
      | None => None
      | Some day =>
          match map_days daily rest (S i) with
          | None => None
          | Some days => Some (day :: days)
          end
      end
  end.

(** [forecastDays] of [fetchForecast]; [None] when building it throws. *)
Definition forecastDays (daily : Daily) : option (list ForecastDay) :=
  match time daily with
  | None => None
  | Some dates => map_days daily dates 0
  end.

End Forecast.

(** ** The rest of the component: export and the handlers *)

Module DataExport.

Import JSString.
Local Open Scope string_scope.

(** The double quote and the line feed. *)
Definition quote : Ascii.ascii := "034"%char.

(** An entry of the [weatherData] state as [downloadData] reads it: the
    entry with its [unit] property, absent on the two composite entries. *)
Record WeatherItem : Type := {
  item : WeatherData;
  unit : option string
}.

(** The [processed] array of [fetchWeather] with the units it writes. *)
Definition fetchWeather_items (maxTemp minTemp rain wind : JS.value)
  : list WeatherItem :=
  map (fun p => {| item := fst p; unit := snd p |})
      (combine (fetchWeather_processed maxTemp minTemp rain wind)
               (Some "°C" :: Some "°C" :: Some "mm" :: Some "km/h"
                :: None :: None :: nil)).

Record ExportRow : Type := {
  location : string;
  date : string;
  condition : string;
  probability : number;
  severity : Severity;
  actualValue : option JS.value;
  row_unit : option string
}.



Inductive Toast : Type :=
| toast_info (message : string)
| toast_success (message : string)
| toast_error (message : string).

(** The severity as the string it is in the source. *)
Definition severityText (s : Severity) : string :=
  match s with
  | low => "low"
  | medium => "medium"
  | high => "high"
  end.

(** [ToBoolean] of a reading. *)
Definition truthy (v : JS.value) : bool :=
  match v with
  | Num (Fin q) => negb (Qeq_bool q 0)
  | Num NaN => false
  | Num _ => true
  | Null | Undefined => false
  end.

(** The global [location.replace]: every double quote becomes two. *)
Definition escape_quotes (s : string) : string :=
  replace_all_char quote (String quote (String quote EmptyString)) s.

Section Formats.

(** [Number.prototype.toString] and [JSON.stringify(data, null, 2)] are
    the engine's; the export is modelled over them. *)
Variable numberToString : number -> string.
Variable stringify : list ExportRow -> string.


(** [row.actualValue || ''] inside the template. *)
Definition actualValueText (a : option JS.value) : string :=
  match a with
  | Some v => if truthy v then numberToString (ToNumber v) else ""
  | None => ""
  end.

(** [row.unit || ''] *)
Definition unitText (u : option string) : string :=
  match u with
  | Some s => s
  | None => ""
  end.

(** The rest of a CSV row after the quoted location. *)
Definition csvRowTail (row : ExportRow) : string :=
  "," ++ date row ++ "," ++ condition row ++ ","
  ++ numberToString (probability row) ++ "%," ++ severityText (severity row)
  ++ "," ++ actualValueText (actualValue row) ++ "," ++ unitText (row_unit row).

Definition csvRow (row : ExportRow) : string :=
  String quote (escape_quotes (location row) ++ String quote (csvRowTail row)).



End Formats.

(** A reader of one quoted CSV field: the field and what follows its
    closing quote; a doubled quote inside stands for one quote. *)
Fixpoint read_quoted_body (s : string) : option (string * string) :=
  match s with
  | EmptyString => None
  | String c s' =>
      if Ascii.eqb c quote then
        match s' with
        | String d s'' =>
            if Ascii.eqb d quote then
              match read_quoted_body s'' with
              | Some (field, rest) => Some (String quote field, rest)
              | None => None
              end
            else Some (EmptyString, s')
        | EmptyString => Some (EmptyString, EmptyString)
        end
      else
        match read_quoted_body s' with
        | Some (field, rest) => Some (String c field, rest)
        | None => None
        end
  end.

Definition read_quoted (s : string) : option (string * string) :=
  match s with
  | String c s' => if Ascii.eqb c quote then read_quoted_body s' else None
  | EmptyString => None
  end.

End DataExport.

Module Handlers.

Import JSString DataExport.
Local Open Scope string_scope.

Record Coords : Type := { lat : number; lon : number }.

(** The state the three handlers write, and the toasts shown so far
    (oldest first). *)
Record State : Type := {
  location : string;
  coords : option Coords;
  weatherData : list WeatherItem;
  isLoading : bool;
  forecastData : list Forecast.ForecastDay;
  toasts : list Toast
}.

(** What awaiting [fetch] and [response.json()] gives: a rejection, or
    the decoded body. *)
Inductive Fetched (A : Type) : Type :=
| rejected
| resolved (data : A).

Arguments rejected {A}.
Arguments resolved {A} data.

(** One hit of the geocoder. *)
Record GeoHit : Type := {
  hit_lat : string;
  hit_lon : string;
  display_name : string
}.

(** The body of a weather response: whether [data.error] is truthy,
    [data.reason], and [data.daily] when the key is there. *)
Record WeatherJson : Type := {
  error : bool;
  reason : string;
  daily : option Forecast.Daily
}.

Definition toast (t : Toast) (st : State) : State :=
  {| location := location st; coords := coords st;
     weatherData := weatherData st; isLoading := isLoading st;
     forecastData := forecastData st; toasts := toasts st ++ t :: nil |}.

Definition setIsLoading (b : bool) (st : State) : State :=
  {| location := location st; coords := coords st;
     weatherData := weatherData st; isLoading := b;
     forecastData := forecastData st; toasts := toasts st |}.

Definition setWeatherData (w : list WeatherItem) (st : State) : State :=
  {| location := location st; coords := coords st;
     weatherData := w; isLoading := isLoading st;
     forecastData := forecastData st; toasts := toasts st |}.

Definition setForecastData (f : list Forecast.ForecastDay) (st : State) : State :=
  {| location := location st; coords := coords st;
     weatherData := weatherData st; isLoading := isLoading st;
     forecastData := f; toasts := toasts st |}.

Definition setCoords (c : Coords) (st : State) : State :=
  {| location := location st; coords := Some c;
     weatherData := weatherData st; isLoading := isLoading st;
     forecastData := forecastData st; toasts := toasts st |}.

Definition setLocation (l : string) (st : State) : State :=
  {| location := l; coords := coords st;
     weatherData := weatherData st; isLoading := isLoading st;
     forecastData := forecastData st; toasts := toasts st |}.

(** [handleSearch]; [parseFloat] is the engine's. *)
Definition handleSearch
  (parseFloat : string -> number)
  (searchLocation : option string) (response : Fetched (list GeoHit))
  (st : State) : State :=
  let searchTerm :=
    match searchLocation with
    | Some s => if String.eqb s "" then location st else s
    | None => location st
    end in
  if String.eqb searchTerm "" then
    toast (toast_info "Please enter a location to search.") st
  else
    let st := setIsLoading true st in
    let st :=
      match response with
      | resolved (hit :: _) =>
          let st :=
            setCoords {| lat := parseFloat (hit_lat hit);
                         lon := parseFloat (hit_lon hit) |} st in
          let st := setLocation (display_name hit) st in
          toast (toast_success ("Location found: " ++ display_name hit)) st
      | resolved nil => toast (toast_error "Location not found") st
      | rejected => toast (toast_error "Error fetching location") st
      end in
    setIsLoading false st.

(** The four readings [fetchWeather] takes at index 0; [None] when a
    read throws. *)
Definition readings (data : WeatherJson)
  : option (JS.value * JS.value * JS.value * JS.value) :=
  match daily data with
  | None => None
  | Some d =>
      match Forecast.at_index (Forecast.temperature_2m_max d) 0,
            Forecast.at_index (Forecast.temperature_2m_min d) 0,
            Forecast.at_index (Forecast.precipitation_sum d) 0,
            Forecast.at_index (Forecast.windspeed_10m_max d) 0 with
      | Some maxTemp, Some minTemp, Some rain, Some wind =>
          Some (maxTemp, minTemp, rain, wind)
      | _, _, _, _ => None
      end
  end.

(** [fetchWeather] for a date that can be formatted; [datePPP] is the
    date as the success toast shows it. *)
Definition fetchWeather
  (datePPP : string) (response : Fetched WeatherJson) (st : State) : State :=
  let st := setIsLoading true st in
  let st := setWeatherData nil st in
  let st :=
    match response with
    | rejected => toast (toast_error "Error fetching weather data") st
    | resolved data =>
        if error data then toast (toast_error (reason data)) st
        else
          match readings data with
          | None => toast (toast_error "Error fetching weather data") st
          | Some (maxTemp, minTemp, rain, wind) =>
              let st :=
                setWeatherData (fetchWeather_items maxTemp minTemp rain wind) st in
              toast (toast_success ("Weather data loaded for " ++ datePPP)) st
          end
    end in
  setIsLoading false st.

(** [fetchForecast] *)
Definition fetchForecast (response : Fetched WeatherJson) (st : State) : State :=
  match response with
  | rejected => toast (toast_error "Error fetching forecast data") st
  | resolved data =>
      if error data then toast (toast_error (reason data)) st
      else
        match daily data with
        | None => toast (toast_error "Error fetching forecast data") st
        | Some d =>
            match Forecast.forecastDays d with
            | None => toast (toast_error "Error fetching forecast data") st
            | Some days => setForecastData days st
            end
        end
  end.

End Handlers.

(** ** The code on a few readings *)

Example hot_30 :
  calculateProbability (Num (Fin 30)) {| min := Fin 25; max := Fin 40 |}
    (Fin 10) (Fin 95) true = Fin 38.
Proof. reflexivity. Qed.

Example cold_3_5 :
  calculateProbability (Num (Fin (7 # 2))) {| min := Fin (-5); max := Fin 10 |}
    (Fin 10) (Fin 95) false = Fin 47.
Proof. reflexivity. Qed.

Example round_tie_goes_up :
  Math_round (Fin (5 # 2)) = Fin 3 /\ Math_round (Fin (- 5 # 2)) = Fin (-2).
Proof. split; reflexivity. Qed.

Example scores_without_data :
  fetchWeather_scores Null Undefined (Num NaN) Null
  = {| hotProb := Fin 10; coldProb := Fin 10; wetProb := Fin 10;
       windyProb := Fin 10; stormProb := Fin 5; uncomfortableProb := Fin 12 |}.
Proof. reflexivity. Qed.

(** ** Order and rounding on the finite part *)

Section Finite.

Lemma Qle_bool_false (x y : Q) : Qle_bool x y = false <-> y < x.
Proof.
  split; intro H.
  - apply Qnot_le_lt. intro Hle. apply Qle_bool_iff in Hle. congruence.
  - destruct (Qle_bool x y) eqn:E; trivial.
    apply Qle_bool_iff in E. lra.
Qed.


Lemma Qlt_bool_false (x y : Q) : Qlt_bool x y = false <-> y <= x.
Proof.
  unfold Qlt_bool. rewrite negb_false_iff. apply Qle_bool_iff.
Qed.

Lemma le_Fin (x y : Q) : le (Fin x) (Fin y) = true <-> x <= y.
Proof. apply Qle_bool_iff. Qed.



Lemma Math_round_Fin (q : Q) :
  Math_round (Fin q) = Fin (inject_Z (round_half_up q)).
Proof. reflexivity. Qed.






End Finite.

(** ** Closed form of [calculateProbability] on finite arguments *)

Section ClosedForm.

Variables lo hi b m : Q.

Let range := {| min := Fin lo; max := Fin hi |}.



End ClosedForm.

(** ** The documented contract of [calculateProbability] *)

Section Contract.

Variables lo hi b m : Q.
Hypothesis range_ordered : lo < hi.

Let range := {| min := Fin lo; max := Fin hi |}.



Lemma calculateProbability_low_end (v : number) (asc : bool) :
  le v (Fin lo) = true ->
  calculateProbability (Num v) range (Fin b) (Fin m) asc
  = if asc then Fin b else Fin m.
Proof.
  intro H. unfold calculateProbability, range.
  destruct v; try discriminate; cbn in *; rewrite ?H; reflexivity.
Qed.


End Contract.

(** ** The contract over binary64 *)

Section Binary64Order.

Import PrimFloat SpecFloat FloatOps FloatAxioms.

Ltac compare_cases :=
  repeat match goal with
         | |- context [Z.compare ?a ?b] =>
             destruct (Z.compare_spec a b); try subst
         | |- context [Pos.compare_cont Eq ?a ?b] =>
             change (Pos.compare_cont Eq a b) with (Pos.compare a b);
             destruct (Pos.compare_spec a b); try subst
         | H : context [Z.compare ?a ?b] |- _ =>
             destruct (Z.compare_spec a b); try subst
         | H : context [Pos.compare_cont Eq ?a ?b] |- _ =>
             change (Pos.compare_cont Eq a b) with (Pos.compare a b) in H;
             destruct (Pos.compare_spec a b); try subst
         end.

Lemma SFcompare_refl (a : spec_float) :
  a <> S754_nan -> SFcompare a a = Some Eq.
Proof.
  unfold SFcompare. destruct a as [s | s | | s m e]; try congruence;
    intros _; try (destruct s; reflexivity).
  destruct s; rewrite Z.compare_refl, Pos.compare_cont_refl; reflexivity.
Qed.

Lemma SFltb_SFleb_trans (a b c : spec_float) :
  SFltb a b = true -> SFleb b c = true -> SFleb c a = false.
Proof.
  unfold SFltb, SFleb, SFcompare.
  destruct a as [sa | sa | | sa ma ea], b as [sb | sb | | sb mb eb],
    c as [sc | sc | | sc mc ec];
    try discriminate; try reflexivity;
    try destruct sa; try destruct sb; try destruct sc;
    try discriminate; try reflexivity;
    intros H1 H2; compare_cases; cbn in *;
    try discriminate; try reflexivity; try lia.
Qed.

Lemma is_nan_Prim2SF (x : float) :
  is_nan x = false <-> Prim2SF x <> S754_nan.
Proof.
  unfold is_nan. rewrite eqb_spec, negb_false_iff. unfold SFeqb. split.
  - intros H E. rewrite E in H. discriminate H.
  - intro H. now rewrite (SFcompare_refl _ H).
Qed.

Lemma leb_refl (x : float) : is_nan x = false -> (x <=? x)%float = true.
Proof.
  intro H. apply is_nan_Prim2SF in H.
  rewrite leb_spec. unfold SFleb. now rewrite (SFcompare_refl _ H).
Qed.

Lemma ltb_not_nan (a b : float) :
  (a <? b)%float = true -> is_nan a = false /\ is_nan b = false.
Proof.
  rewrite ltb_spec. intro H.
  split; apply is_nan_Prim2SF; intro E; rewrite E in H;
    [ | destruct (Prim2SF a)]; discriminate H.
Qed.

Lemma ltb_leb_trans (a b c : float) :
  (a <? b)%float = true -> (b <=? c)%float = true -> (c <=? a)%float = false.
Proof.
  rewrite ltb_spec, !leb_spec. apply SFltb_SFleb_trans.
Qed.

End Binary64Order.

Section Binary64Contract.

Import PrimFloat SpecFloat FloatOps Binary64.
Local Open Scope float_scope.
#[local] Set Warnings "-inexact-float".

Variables lo hi b m : float.
Hypothesis range_ordered : (lo <? hi) = true.

Let range := {| min := lo; max := hi |}.

Lemma binary64_low_end (v : float) (asc : bool) :
  is_nan v = false -> (v <=? lo) = true ->
  calculateProbability (Num v) range b m asc = if asc then b else m.
Proof.
  intros Hv H. unfold calculateProbability, isNaN, range.
  cbn [strict_eq_null ToNumber min max orb]. rewrite Hv, H. reflexivity.
Qed.

Lemma binary64_high_end (v : float) (asc : bool) :
  is_nan v = false -> (hi <=? v) = true ->
  calculateProbability (Num v) range b m asc = if asc then m else b.
Proof.
  intros Hv H. unfold calculateProbability, isNaN, range.
  cbn [strict_eq_null ToNumber min max orb].
  rewrite Hv, H, (ltb_leb_trans _ _ _ range_ordered H). reflexivity.
Qed.

Lemma binary64_interior (v : float) (asc : bool) :
  is_nan v = false -> (v <=? lo) = false -> (hi <=? v) = false ->
  calculateProbability (Num v) range b m asc
  = Math_round (if asc then b + (v - lo) / (hi - lo) * (m - b)
                else m - (v - lo) / (hi - lo) * (m - b)).
Proof.
  intros Hv H1 H2. unfold calculateProbability, isNaN, range.
  cbn [strict_eq_null ToNumber min max orb]. rewrite Hv, H1, H2.
  now destruct asc.
Qed.

End Binary64Contract.

Section Binary64Claims.

Import PrimFloat SpecFloat FloatOps Binary64.
Local Open Scope float_scope.
#[local] Set Warnings "-inexact-float".

(** C1 as stated fails on the code.  The reading 3.4 is the double
    7656119366529843 / 2^51; over [{min:1, max:25}] between 10 and 95 the
    exact interpolation of that double lies below 18.5 and its nearest
    integer is 18, while the code returns 19.  At 287 over
    [{min:50, max:500}] between 5 and 80 the exact value is the tie 44.5,
    which [Math.round] takes to 45, while the code returns 44.  And over
    the finite range from [-2^1023] to [3 * 2^1022] the differences
    overflow and the score of [2^1023] is [NaN]. *)
Lemma ascending_interior_not_exactly_rounded :
  (Prim2SF 3.4 = S754_finite false 7656119366529843 (-51) /\
   calculateProbability (Num 3.4) {| min := 1; max := 25 |} 10 95 true = 19 /\
   round_half_up
     (10 + ((7656119366529843 # 2251799813685248) - 1) / (25 - 1) * (95 - 10))%Q
   = 18%Z) /\
  (calculateProbability (Num 287) {| min := 50; max := 500 |} 5 80 true = 44 /\
   round_half_up (5 + (287 - 50) / (500 - 50) * (80 - 5))%Q = 45%Z) /\
  ((-0x1p1023 <? 0x1.8p1023) = true /\
   (-0x1p1023 <? 0x1p1023) = true /\ (0x1p1023 <? 0x1.8p1023) = true /\
   is_nan (calculateProbability (Num 0x1p1023)
             {| min := -0x1p1023; max := 0x1.8p1023 |} 10 95 true) = true).
Proof. vm_compute. repeat split. Qed.

(** C1 (amended). With [min < max] and a numeric [value], the ascending
    score is [baseScore] at or below [range.min], [maxScore] at or above
    [range.max], and in between [Math.round] of the binary64 value of
    [baseScore + (value-min)/(max-min) * (maxScore-baseScore)]; so the
    score at [range.min] is [baseScore], at [range.max] it is [maxScore],
    and [score(40, {min:25,max:40}, 10, 95, true) = 95]. *)
Theorem ascending_score_contract (lo hi b m v : float) :
  (lo <? hi) = true -> is_nan v = false ->
  let range := {| min := lo; max := hi |} in
  let score v := calculateProbability (Num v) range b m true in
  ((v <=? lo) = true -> score v = b) /\
  ((hi <=? v) = true -> score v = m) /\
  ((v <=? lo) = false -> (hi <=? v) = false ->
   score v = Math_round (b + (v - lo) / (hi - lo) * (m - b))) /\
  score lo = b /\
  score hi = m /\
  calculateProbability (Num 40) {| min := 25; max := 40 |} 10 95 true = 95.
Proof.
  intros Hr Hv range score. subst range score. cbv beta.
  destruct (ltb_not_nan _ _ Hr) as [Hlo Hhi].
  split; [|split; [|split; [|split; [|split]]]].
  - intro H. exact (binary64_low_end lo hi b m v true Hv H).
  - intro H. exact (binary64_high_end lo hi b m Hr v true Hv H).
  - intros H1 H2. exact (binary64_interior lo hi b m v true Hv H1 H2).
  - exact (binary64_low_end lo hi b m lo true Hlo (leb_refl lo Hlo)).
  - exact (binary64_high_end lo hi b m Hr hi true Hhi (leb_refl hi Hhi)).
  - reflexivity.
Qed.

Lemma ascending_score_contract_witness :
  calculateProbability (Num 30) {| min := 25; max := 40 |} 10 95 true
  = Math_round (10 + (30 - 25) / (40 - 25) * (95 - 10)).
Proof.
  assert ((25 <? 40) = true) as Hr by reflexivity.
  assert (is_nan 30 = false) as Hv by reflexivity.
  destruct (ascending_score_contract 25 40 10 95 30 Hr Hv) as (_ & _ & H & _).
  apply H; reflexivity.
Defined.

(** C2 as stated fails on the code.  The reading -0.49999999999999994 is
    the double -(2^53 - 1) / 2^54; over [{min:-5, max:10}] between 10 and
    95, descending, the exact interpolation of that double lies below 69.5
    and its nearest integer is 69, while the code returns 70.  At 20 over
    [{min:-5, max:29}] the exact value is the tie 32.5, which [Math.round]
    takes to 33, while the code returns 32.  And over the finite range
    from [-2^1023] to [3 * 2^1022] the score of [2^1023] is [NaN]. *)
Lemma descending_interior_not_exactly_rounded :
  (Prim2SF (-0.49999999999999994)
   = S754_finite true 9007199254740991 (-54) /\
   calculateProbability (Num (-0.49999999999999994))
     {| min := -5; max := 10 |} 10 95 false = 70 /\
   round_half_up
     (95 - ((- (9007199254740991 # 18014398509481984)) - (-5)) / (10 - (-5))
           * (95 - 10))%Q
   = 69%Z) /\
  (calculateProbability (Num 20) {| min := -5; max := 29 |} 10 95 false = 32 /\
   round_half_up (95 - (20 - (-5)) / (29 - (-5)) * (95 - 10))%Q = 33%Z) /\
  ((-0x1p1023 <? 0x1.8p1023) = true /\
   (-0x1p1023 <? 0x1p1023) = true /\ (0x1p1023 <? 0x1.8p1023) = true /\
   is_nan (calculateProbability (Num 0x1p1023)
             {| min := -0x1p1023; max := 0x1.8p1023 |} 10 95 false) = true).
Proof. vm_compute. repeat split. Qed.

(** C2 (amended). With [min < max] and a numeric [value], the descending
    score is [maxScore] at or below [range.min], [baseScore] at or above
    [range.max], and in between [Math.round] of the binary64 value of
    [maxScore - (value-min)/(max-min) * (maxScore-baseScore)]; so the
    score at [range.min] is [maxScore], at [range.max] it is [baseScore],
    and [score(10, {min:-5,max:10}, 10, 95, false) = 10]. *)
Theorem descending_score_contract (lo hi b m v : float) :
  (lo <? hi) = true -> is_nan v = false ->
  let range := {| min := lo; max := hi |} in
  let score v := calculateProbability (Num v) range b m false in
  ((v <=? lo) = true -> score v = m) /\
  ((hi <=? v) = true -> score v = b) /\
  ((v <=? lo) = false -> (hi <=? v) = false ->
   score v = Math_round (m - (v - lo) / (hi - lo) * (m - b))) /\
  score lo = m /\
  score hi = b /\
  calculateProbability (Num 10) {| min := -5; max := 10 |} 10 95 false = 10.
Proof.
  intros Hr Hv range score. subst range score. cbv beta.
  destruct (ltb_not_nan _ _ Hr) as [Hlo Hhi].
  split; [|split; [|split; [|split; [|split]]]].
  - intro H. exact (binary64_low_end lo hi b m v false Hv H).
  - intro H. exact (binary64_high_end lo hi b m Hr v false Hv H).
  - intros H1 H2. exact (binary64_interior lo hi b m v false Hv H1 H2).
  - exact (binary64_low_end lo hi b m lo false Hlo (leb_refl lo Hlo)).
  - exact (binary64_high_end lo hi b m Hr hi false Hhi (leb_refl hi Hhi)).
  - reflexivity.
Qed.

Lemma descending_score_contract_witness :
  calculateProbability (Num neg_infinity) {| min := -5; max := 10 |} 10 95 false
  = 95.
Proof.
  assert ((-5 <? 10) = true) as Hr by reflexivity.
  assert (is_nan neg_infinity = false) as Hv by reflexivity.
  destruct (descending_score_contract (-5) 10 10 95 neg_infinity Hr Hv)
    as (H & _).
  apply H; reflexivity.
Defined.

End Binary64Claims.

(** ** The composite scores over binary64 *)

Section Binary64Composite.

Import PrimFloat SpecFloat FloatOps FloatAxioms Binary64.
Local Open Scope float_scope.
#[local] Set Warnings "-inexact-float".

Lemma integers_from_In (lo z : Z) (n : nat) :
  (lo <= z < lo + Z.of_nat n)%Z -> In z (integers_from lo n).
Proof.
  intro H. unfold integers_from. apply in_map_iff.
  exists (Z.to_nat (z - lo)). split; [lia|].
  apply in_seq. lia.
Qed.

Lemma discomfort_agrees_on_scores :
  forallb (fun hot => forallb (discomfort_agrees hot) (integers_from 10 86))
          (integers_from 10 86) = true.
Proof. vm_compute. reflexivity. Qed.

Lemma spec_discomfortIndex_bonus (hot wet windy : float) :
  spec_discomfortIndex hot wet windy
  = spec_discomfortIndex hot wet (if 70 <? windy then 71 else 70).
Proof.
  unfold spec_discomfortIndex.
  destruct (70 <? windy); reflexivity.
Qed.

Lemma spec_discomfortIndex_integer (hot wet : Z) (windy : float) :
  (10 <= hot <= 95)%Z -> (10 <= wet <= 95)%Z ->
  spec_discomfortIndex (of_Z hot) (of_Z wet) windy
  = of_Z (discomfort_integer hot wet (70 <? windy)).
Proof.
  intros Hh Hw.
  pose proof discomfort_agrees_on_scores as A.
  rewrite forallb_forall in A.
  specialize (A hot (integers_from_In 10 hot 86 ltac:(lia))).
  rewrite forallb_forall in A.
  specialize (A wet (integers_from_In 10 wet 86 ltac:(lia))).
  unfold discomfort_agrees in A. apply andb_true_iff in A.
  destruct A as [A1 A0].
  apply Leibniz.eqb_spec in A1. apply Leibniz.eqb_spec in A0.
  rewrite spec_discomfortIndex_bonus.
  destruct (70 <? windy); assumption.
Qed.

(** C7. The two composite scores are the stated compositions of the
    primitive score: [stormProb] is the ascending score of
    [rain * wind] over [{min:50, max:500}] between 5 and 80, and
    [uncomfortableProb] is [min(99, round((hotProb + wetProb) * 0.6 +
    (windyProb > 70 ? 10 : 0)))] of the three primitive scores of the
    readings; on integer scores from 10 to 95 that is six tenths of their
    sum rounded half up, plus the bonus, capped at 99.  Rain 25 and wind
    60 give a storm score of 80, of severity high. *)
Theorem composite_scores (maxTemp minTemp rain wind : value) :
  let s := fetchWeather_scores maxTemp minTemp rain wind in
  stormProb s = spec_stormRisk rain wind /\
  uncomfortableProb s
  = spec_discomfortIndex (score maxTemp 25 40 10 95 true)
      (score rain 1 25 10 95 true) (score wind 20 60 10 95 true) /\
  (forall (hot wet : Z) (windyScore : float),
      (10 <= hot <= 95)%Z -> (10 <= wet <= 95)%Z ->
      spec_discomfortIndex (of_Z hot) (of_Z wet) windyScore
      = of_Z (discomfort_integer hot wet (70 <? windyScore))) /\
  stormProb (fetchWeather_scores maxTemp minTemp (Num 25) (Num 60)) = 80 /\
  getSeverity (stormProb (fetchWeather_scores maxTemp minTemp (Num 25) (Num 60)))
  = high.
Proof.
  intro s. split; [reflexivity|]. split; [reflexivity|].
  split; [exact spec_discomfortIndex_integer|].
  split; reflexivity.
Qed.

End Binary64Composite.

(** ** Overflow, and the dashboard's calls on a grid *)

Section Binary64Evidence.

Import PrimFloat SpecFloat FloatOps Binary64.
Local Open Scope float_scope.
#[local] Set Warnings "-inexact-float".

(** Over a finite ordered range whose width overflows the score is not
    monotone and can be [NaN]; between finite bounds whose difference
    overflows it can be infinite. *)
Lemma binary64_overflow :
  let range := {| min := -0x1p1023; max := 0x1.8p1023 |} in
  (0x1p1022 <? 0x1p1023) = true /\
  calculateProbability (Num 0x1p1022) range 10 95 true = 10 /\
  is_nan (calculateProbability (Num 0x1p1023) range 10 95 true) = true /\
  (calculateProbability (Num 0x1p1022) range 10 95 true
   <=? calculateProbability (Num 0x1p1023) range 10 95 true) = false /\
  calculateProbability (Num 5) {| min := 0; max := 10 |} (-1e308) 1e308 true
  = infinity.
Proof. vm_compute. repeat split. Qed.

(** Where the two embeddings part: at 287 the exact interpolation is the
    tie 44.5, which the exact embedding rounds to 45, while the binary64
    product falls just short of it and the code returns 44. *)
Example embeddings_differ_at_a_tie :
  calculateProbability (Num 287) {| min := 50; max := 500 |} 5 80 true = 44 /\
  WeatherDashboard.calculateProbability (JS.Num (JS.Fin 287))
    {| WeatherDashboard.min := JS.Fin 50; WeatherDashboard.max := JS.Fin 500 |}
    (JS.Fin 5) (JS.Fin 80) true = JS.Fin 45.
Proof. split; reflexivity. Qed.

(** The five calls of the dashboard on every tenth of a unit from below
    the range to above it: the binary64 scores are integers within the
    bounds, and they never fall (for the cold score, never rise) along
    the grid. *)
Lemma dashboard_calls_on_tenths :
  let hot := scores_over 25 40 10 95 true (tenths 200 251) in
  let cold := scores_over (-5) 10 10 95 false (tenths (-100) 251) in
  let wet := scores_over 1 25 10 95 true (tenths 0 301) in
  let windy := scores_over 20 60 10 95 true (tenths 150 501) in
  let storm := scores_over 50 500 5 80 true (tenths 400 4701) in
  integers_within 10 95 hot && nondecreasing hot
  && integers_within 10 95 cold && nondecreasing (rev cold)
  && integers_within 10 95 wet && nondecreasing wet
  && integers_within 10 95 windy && nondecreasing windy
  && integers_within 5 80 storm && nondecreasing storm = true.
Proof. vm_compute. reflexivity. Qed.

End Binary64Evidence.

(** C3. When [value] is [null], [undefined] or [NaN] the score is
    [baseScore], whatever the range, the bounds and the direction. *)
Theorem missing_value_scores_baseScore
  (thresholds : Thresholds) (baseScore maxScore : number) (ascending : bool) :
  calculateProbability Null thresholds baseScore maxScore ascending = baseScore /\
  calculateProbability Undefined thresholds baseScore maxScore ascending = baseScore /\
  calculateProbability (Num NaN) thresholds baseScore maxScore ascending = baseScore.
Proof. repeat split. Qed.

(** ** Severity bands *)

Lemma getSeverity_Fin (p : Q) :
  getSeverity (Fin p)
  = if Qle_bool 70 p then high else if Qle_bool 40 p then medium else low.
Proof. reflexivity. Qed.

Lemma le_trans (a b c : number) :
  le a b = true -> le b c = true -> le a c = true.
Proof.
  destruct a as [ | | | x], b as [ | | | y], c as [ | | | z];
    cbn; try discriminate; try reflexivity.
  rewrite !Qle_bool_iff. apply Qle_trans.
Qed.

(** C4, the parenthesis of the claim taken literally: 69 is not in the
    low band and 70 is not a medium score. *)
Lemma severity_69_is_not_low :
  getSeverity (Fin 69) = medium /\ getSeverity (Fin 69) <> low /\
  getSeverity (Fin 70) = high /\ getSeverity (Fin 70) <> medium.
Proof. repeat split; discriminate. Qed.

(** C4 (amended). [getSeverity] is the fixed-cutoff function: a score is
    high iff it is at least 70, medium iff it is at least 40 and below 70,
    low iff it is below 40; 39 is low, 40 and 69 are medium, 70 is high. *)
Theorem getSeverity_cutoffs (p : Q) :
  (getSeverity (Fin p) = high <-> 70 <= p) /\
  (getSeverity (Fin p) = medium <-> 40 <= p < 70) /\
  (getSeverity (Fin p) = low <-> p < 40) /\
  getSeverity (Fin 39) = low /\
  getSeverity (Fin 40) = medium /\
  getSeverity (Fin 69) = medium /\
  getSeverity (Fin 70) = high.
Proof.
  rewrite getSeverity_Fin.
  destruct (Qle_bool 70 p) eqn:E70; destruct (Qle_bool 40 p) eqn:E40;
    try apply Qle_bool_iff in E70; try apply Qle_bool_false in E70;
    try apply Qle_bool_iff in E40; try apply Qle_bool_false in E40;
    repeat split; intros; try discriminate; try reflexivity; lra.
Qed.

Lemma getSeverity_special :
  getSeverity PosInf = high /\ getSeverity NegInf = low /\ getSeverity NaN = low.
Proof. repeat split. Qed.

(** C9. [getSeverity] is monotone: a larger score never has a lower band. *)
Theorem getSeverity_monotone (p1 p2 : number) :
  le p1 p2 = true -> Severity_le (getSeverity p1) (getSeverity p2).
Proof.
  intro H. unfold getSeverity, ge, Severity_le.
  destruct (le (Fin 70) p1) eqn:A1.
  - rewrite (le_trans _ _ _ A1 H). cbn. lia.
  - destruct (le (Fin 40) p1) eqn:B1.
    + pose proof (le_trans _ _ _ B1 H) as B2. rewrite B2.
      destruct (le (Fin 70) p2); cbn; lia.
    + destruct (le (Fin 70) p2), (le (Fin 40) p2); cbn; lia.
Qed.

Lemma getSeverity_monotone_witness :
  Severity_le (getSeverity (Fin 39)) (getSeverity (Fin 70)).
Proof.
  apply (getSeverity_monotone (Fin 39) (Fin 70)). reflexivity.
Defined.

(** ** Range and monotonicity of the score *)

Section Interpolation.

Variables lo hi b m : Q.
Hypothesis range_ordered : lo < hi.
Hypothesis bounds_ordered : b <= m.








End Interpolation.


Section IntegerBounds.

Variables lo hi : Q.
Variables b m : Z.
Hypothesis range_ordered : lo < hi.
Hypothesis bounds_ordered : (b <= m)%Z.

Let range := {| min := Fin lo; max := Fin hi |}.
Let score (asc : bool) (v : value) : number :=
  calculateProbability v range (Fin (inject_Z b)) (Fin (inject_Z m)) asc.

Let bounds_ordered_Q : inject_Z b <= inject_Z m.
Proof. rewrite <- Zle_Qle. exact bounds_ordered. Qed.



End IntegerBounds.

(** ** The order of JavaScript numbers *)





Lemma lt_irrefl (a : number) : lt a a = false.
Proof.
  destruct a; cbn; trivial. apply Qlt_bool_false. lra.
Qed.


(** ** C5 and C6: what fails, and what holds *)



Section Monotone.

Variables lo hi : Q.
Variables b m : Z.
Hypothesis range_ordered : lo < hi.
Hypothesis bounds_ordered : (b <= m)%Z.

Let range := {| min := Fin lo; max := Fin hi |}.
Let score (asc : bool) (v : number) : number :=
  calculateProbability (Num v) range (Fin (inject_Z b)) (Fin (inject_Z m)) asc.

Let bounds_ordered_Q : inject_Z b <= inject_Z m.
Proof. rewrite <- Zle_Qle. exact bounds_ordered. Qed.





End Monotone.





(** ** The composite scores *)







(** ** The score of a finite reading in closed form *)


(** * The rest of the component *)

(** ** Bar colours *)

Section Colours.

Import Charts.
Local Open Scope string_scope.

Lemma ge_weaken (p : number) (a c : Q) :
  a <= c -> ge p (Fin c) = true -> ge p (Fin a) = true.
Proof.
  intros H Hc. unfold ge in *.
  apply (le_trans (Fin a) (Fin c) p); [now apply le_Fin | exact Hc].
Qed.

Lemma ge_above (p1 p2 : number) (c : Q) :
  le p1 p2 = true -> ge p1 (Fin c) = true -> ge p2 (Fin c) = true.
Proof.
  intros H Hc. unfold ge in *. exact (le_trans _ _ _ Hc H).
Qed.

(** X1. A larger score never gets a cooler bar colour. *)
Theorem getProbabilityColor_monotone (p1 p2 : number) :
  le p1 p2 = true ->
  (colour_rank (getProbabilityColor p1) <= colour_rank (getProbabilityColor p2))%nat.
Proof.
  intro H. unfold getProbabilityColor.
  destruct (ge p1 (Fin 70)) eqn:A1.
  - rewrite (ge_above _ _ _ H A1). apply Nat.le_refl.
  - destruct (ge p1 (Fin 50)) eqn:B1.
    + rewrite (ge_above _ _ _ H B1).
      destruct (ge p2 (Fin 70)); cbn; lia.
    + destruct (ge p1 (Fin 30)) eqn:C1.
      * rewrite (ge_above _ _ _ H C1).
        destruct (ge p2 (Fin 70)), (ge p2 (Fin 50)); cbn; lia.
      * destruct (ge p2 (Fin 70)), (ge p2 (Fin 50)), (ge p2 (Fin 30));
          cbn; lia.
Qed.

Lemma getProbabilityColor_monotone_witness :
  (colour_rank (getProbabilityColor (Fin 38))
   <= colour_rank (getProbabilityColor (Fin 95)))%nat.
Proof.
  apply (getProbabilityColor_monotone (Fin 38) (Fin 95)). reflexivity.
Defined.

Lemma red_iff_high (p : number) :
  getProbabilityColor p = "hsl(0, 100%, 65%)" <-> getSeverity p = high.
Proof.
  unfold getProbabilityColor, getSeverity.
  destruct (ge p (Fin 70)); [split; reflexivity|].
  split; intro H.
  - destruct (ge p (Fin 50)), (ge p (Fin 30)); discriminate H.
  - destruct (ge p (Fin 40)); discriminate H.
Qed.

(** X2. Colour and severity agree on every number: a bar is red exactly
    when the severity is high, a medium score is orange or blue, and a low
    score is blue or green. *)
Theorem getProbabilityColor_agrees_with_getSeverity (p : number) :
  (getProbabilityColor p = "hsl(0, 100%, 65%)" <-> getSeverity p = high) /\
  (getSeverity p = medium ->
   getProbabilityColor p = "hsl(30, 100%, 65%)" \/
   getProbabilityColor p = "hsl(200, 100%, 65%)") /\
  (getSeverity p = low ->
   getProbabilityColor p = "hsl(200, 100%, 65%)" \/
   getProbabilityColor p = "hsl(160, 100%, 65%)").
Proof.
  unfold getProbabilityColor, getSeverity.
  destruct (ge p (Fin 70)) eqn:A.
  - repeat split; intros; try discriminate; reflexivity.
  - destruct (ge p (Fin 50)) eqn:B.
    + assert (ge p (Fin 40) = true) as C by (apply (ge_weaken p 40 50); [lra | exact B]).
      rewrite C. repeat split; intros; try discriminate; auto.
    + destruct (ge p (Fin 40)) eqn:C.
      * assert (ge p (Fin 30) = true) as D
            by (apply (ge_weaken p 30 40); [lra | exact C]).
        rewrite D. repeat split; intros; try discriminate; auto.
      * destruct (ge p (Fin 30));
          repeat split; intros; try discriminate; auto.
Qed.

(** X3. The chart of a dashboard query: the six bars keep the condition
    names and scores in order, and a bar is red exactly when the entry it
    is drawn from has severity high. *)
Theorem chartData_of_processed (maxTemp minTemp rain wind : value) :
  let w := fetchWeather_processed maxTemp minTemp rain wind in
  map name (chartData w)
  = "Sunny" :: "Cold" :: "Rainy" :: "Wind" :: "Cloudy" :: "Uncomfortable" :: nil /\
  map Charts.probability (chartData w) = map WeatherDashboard.probability w /\
  forall (i : nat) (e : WeatherData) (c : ChartDatum),
    nth_error w i = Some e -> nth_error (chartData w) i = Some c ->
    (fill c = "hsl(0, 100%, 65%)" <-> severity e = high).
Proof.
  intro w. split; [reflexivity|]. split.
  - unfold chartData. rewrite map_map. reflexivity.
  - intros i e c He Hc. unfold chartData in Hc.
    rewrite nth_error_map, He in Hc. cbn in Hc. injection Hc as <-.
    cbn [fill].
    assert (severity e = getSeverity (WeatherDashboard.probability e)) as ->.
    { subst w. do 6 (destruct i as [|i]; [injection He as <-; reflexivity|]).
      destruct i; discriminate. }
    apply red_iff_high.
Qed.

End Colours.

(** ** The comparison panel *)

(** X4. For the same four readings the comparison panel shows the first
    four entries of the dashboard, with the same scores and severities;
    it has no storm and no discomfort entry. *)
Theorem comparison_agrees_with_dashboard (maxTemp minTemp rain wind : value) :
  Comparison.processedWeatherData maxTemp minTemp rain wind
  = firstn 4 (fetchWeather_processed maxTemp minTemp rain wind) /\
  map condition (skipn 4 (fetchWeather_processed maxTemp minTemp rain wind))
  = ("Cloudy" :: "Uncomfortable" :: nil)%string.
Proof. split; reflexivity. Qed.

(** ** The dashboard entries *)



Lemma calculateProbability_missing
  (v : value) (t : Thresholds) (b m : number) (asc : bool) :
  missing v = true -> calculateProbability v t b m asc = b.
Proof.
  unfold missing, calculateProbability. now intros ->.
Qed.

Lemma storm_score_missing (rain wind : value) :
  missing rain = true \/ missing wind = true ->
  calculateProbability (Num (mul (ToNumber rain) (ToNumber wind)))
    {| min := Fin 50; max := Fin 500 |} (Fin 5) (Fin 80) true
  = Fin 5.
Proof.
  intro H.
  set (product := mul (ToNumber rain) (ToNumber wind)).
  assert (product = NaN \/ exists q, product = Fin q /\ q == 0) as [-> | (q & -> & Hq)].
  { subst product.
    destruct H as [H | H].
    - destruct rain as [ | | [ | | | x]]; try discriminate H; cbn [ToNumber];
        try (left; reflexivity).
      destruct (ToNumber wind) as [ | | | w]; cbn;
        try (left; reflexivity).
      right. eexists; split; [reflexivity | ring].
    - destruct wind as [ | | [ | | | x]]; try discriminate H; cbn [ToNumber];
        try (left; now destruct (ToNumber rain)).
      destruct (ToNumber rain) as [ | | | r]; cbn;
        try (left; reflexivity).
      right. eexists; split; [reflexivity | ring]. }
  - reflexivity.
  - apply (calculateProbability_low_end 50 500 5 80 (Fin q) true).
    apply le_Fin. lra.
Qed.

(** X6. The storm score stays at its base 5 whenever the rain or the wind
    reading is missing ([null], [undefined] or [NaN]), whatever the other
    reading is. *)
Theorem stormProb_needs_both_readings (maxTemp minTemp rain wind : value) :
  missing rain = true \/ missing wind = true ->
  stormProb (fetchWeather_scores maxTemp minTemp rain wind) = Fin 5.
Proof.
  intro H. exact (storm_score_missing rain wind H).
Qed.

Lemma stormProb_needs_both_readings_witness :
  stormProb (fetchWeather_scores (Num (Fin 30)) (Num (Fin 12)) Null (Num PosInf))
  = Fin 5.
Proof.
  apply (stormProb_needs_both_readings (Num (Fin 30)) (Num (Fin 12)) Null (Num PosInf)).
  left. reflexivity.
Defined.

(** ** The forecast labels *)

Section ForecastLabels.

Import Forecast.
Local Open Scope string_scope.

Lemma dayCondition_Hot (a b c : value) :
  dayCondition a b c = "Hot" <-> gt (ToNumber a) (Fin 25) = true.
Proof.
  unfold dayCondition.
  destruct (gt (ToNumber a) (Fin 25)), (lt (ToNumber b) (Fin 5)),
    (gt (ToNumber c) (Fin 5)); split; intro; try discriminate; reflexivity.
Qed.



(** X7. A [null] minimum temperature compares as 0: whatever the other
    readings are, such a day is labelled Hot when its maximum temperature
    is above 25 and Cold otherwise.  A day whose three readings are
    [undefined] or [NaN] is labelled Clear. *)
Theorem dayCondition_without_data (a b c : value) :
  dayCondition a Null c
  = (if gt (ToNumber a) (Fin 25) then "Hot" else "Cold") /\
  (isNaN a = true -> isNaN b = true -> isNaN c = true ->
   dayCondition a b c = "Clear").
Proof.
  split.
  - unfold dayCondition. now destruct (gt (ToNumber a) (Fin 25)).
  - unfold isNaN, dayCondition. intros Ha Hb Hc.
    destruct (ToNumber a); try discriminate.
    destruct (ToNumber b); try discriminate.
    destruct (ToNumber c); try discriminate.
    reflexivity.
Qed.

(** X8. The label and the Sunny score agree: a day that is not labelled
    Hot has the base Sunny score 10 for the same maximum temperature. *)
Theorem not_Hot_scores_base (maxTemp minTemp rain wind : value) :
  dayCondition maxTemp minTemp rain <> "Hot" ->
  hotProb (fetchWeather_scores maxTemp minTemp rain wind) = Fin 10.
Proof.
  intro H.
  assert (gt (ToNumber maxTemp) (Fin 25) = false) as Hgt.
  { destruct (gt (ToNumber maxTemp) (Fin 25)) eqn:E; trivial.
    apply dayCondition_Hot with (b := minTemp) (c := rain) in E.
    contradiction. }
  cbv beta zeta iota delta [fetchWeather_scores hotProb].
  destruct maxTemp as [ | | [ | | | x]]; try reflexivity; try discriminate Hgt.
  apply (calculateProbability_low_end 25 40 10 95 (Fin x) true).
  cbn in Hgt. apply Qlt_bool_false in Hgt. now apply le_Fin.
Qed.

Lemma not_Hot_scores_base_witness :
  hotProb (fetchWeather_scores (Num (Fin 25)) (Num (Fin 2)) Null Undefined)
  = Fin 10.
Proof.
  apply (not_Hot_scores_base (Num (Fin 25)) (Num (Fin 2)) Null Undefined).
  discriminate.
Defined.





End ForecastLabels.

(** ** The forecast days *)

Section ForecastDays.

Import JSString Forecast.
Local Open Scope string_scope.

Variables (tmax tmin rain wind : list value).

(** The day the callback builds for [date] at index [i]. *)
Let day_at (date : string) (i : nat) : ForecastDay :=
  {| date := date;
     maxTemp := index tmax i; minTemp := index tmin i;
     precipitation := index rain i; windSpeed := index wind i;
     condition := dayCondition (index tmax i) (index tmin i) (index rain i) |}.

Lemma map_days_all_keys (dates : list string) (times : option (list string)) :
  let daily :=
    {| time := times;
       temperature_2m_max := Some tmax; temperature_2m_min := Some tmin;
       precipitation_sum := Some rain; windspeed_10m_max := Some wind |} in
  forall i : nat,
  exists days,
    map_days daily dates i = Some days /\
    List.length days = List.length dates /\
    forall (k : nat) (date : string),
      nth_error dates k = Some date ->
      nth_error days k = Some (day_at date (i + k)).
Proof.
  intro daily. induction dates as [ | d rest IH]; intro i.
  - exists nil. repeat split. intros [ | k] date H; discriminate H.
  - destruct (IH (S i)) as (days & Hdays & Hlen & Hnth).
    exists (day_at d i :: days). cbn [map_days].
    change (forecastDay daily d i) with (Some (day_at d i)).
    rewrite Hdays. split; [reflexivity|]. split; [cbn; now rewrite Hlen|].
    intros [ | k] date H.
    + injection H as <-. now rewrite Nat.add_0_r.
    + cbn in H |- *. rewrite (Hnth k date H). now rewrite Nat.add_succ_r.
Qed.

(** X11. When the response has all five keys the forecast has one day per
    date, in order, each reading taken at the date's index and
    [undefined] where an array is shorter than [time]; nothing throws. *)
Theorem forecastDays_all_keys (dates : list string) :
  exists days,
    forecastDays
      {| time := Some dates;
         temperature_2m_max := Some tmax; temperature_2m_min := Some tmin;
         precipitation_sum := Some rain; windspeed_10m_max := Some wind |}
    = Some days /\
    List.length days = List.length dates /\
    forall (k : nat) (date : string),
      nth_error dates k = Some date ->
      nth_error days k
      = Some {| date := date;
                maxTemp := index tmax k; minTemp := index tmin k;
                precipitation := index rain k; windSpeed := index wind k;
                condition :=
                  dayCondition (index tmax k) (index tmin k) (index rain k) |}.
Proof.
  unfold forecastDays. cbn [time].
  exact (map_days_all_keys dates (Some dates) 0).
Qed.

(** X12. A date past the end of the temperature and precipitation arrays
    still gets a day, with [undefined] readings and the label Clear. *)
Theorem forecast_day_past_the_data
  (dates : list string) (days : list ForecastDay) (k : nat) (day : ForecastDay) :
  forecastDays
    {| time := Some dates;
       temperature_2m_max := Some tmax; temperature_2m_min := Some tmin;
       precipitation_sum := Some rain; windspeed_10m_max := Some wind |}
  = Some days ->
  nth_error days k = Some day ->
  (List.length tmax <= k)%nat -> (List.length tmin <= k)%nat ->
  (List.length rain <= k)%nat ->
  maxTemp day = Undefined /\ minTemp day = Undefined /\
  precipitation day = Undefined /\ condition day = "Clear".
Proof.
  intros Hdays Hday H1 H2 H3.
  destruct (map_days_all_keys dates (Some dates) 0)
    as (days' & Hdays' & Hlen & Hnth).
  unfold forecastDays in Hdays. cbn [time] in Hdays.
  rewrite Hdays in Hdays'. injection Hdays' as <-.
  assert (k < List.length dates)%nat as Hk.
  { rewrite <- Hlen. apply nth_error_Some. congruence. }
  destruct (nth_error dates k) as [date | ] eqn:Hdate;
    [ | apply nth_error_None in Hdate; lia].
  rewrite (Hnth k date Hdate) in Hday. injection Hday as <-.
  unfold day_at. cbn [maxTemp minTemp precipitation condition Nat.add].
  unfold index.
  rewrite !nth_overflow by assumption. repeat split.
Qed.

End ForecastDays.

Lemma forecast_day_past_the_data_witness :
  Forecast.maxTemp
    {| Forecast.date := "2024-05-02"; Forecast.maxTemp := Undefined;
       Forecast.minTemp := Undefined; Forecast.precipitation := Undefined;
       Forecast.windSpeed := Num (Fin 7); Forecast.condition := "Clear" |}
  = Undefined /\
  Forecast.minTemp
    {| Forecast.date := "2024-05-02"; Forecast.maxTemp := Undefined;
       Forecast.minTemp := Undefined; Forecast.precipitation := Undefined;
       Forecast.windSpeed := Num (Fin 7); Forecast.condition := "Clear" |}
  = Undefined /\
  Forecast.precipitation
    {| Forecast.date := "2024-05-02"; Forecast.maxTemp := Undefined;
       Forecast.minTemp := Undefined; Forecast.precipitation := Undefined;
       Forecast.windSpeed := Num (Fin 7); Forecast.condition := "Clear" |}
  = Undefined /\
  Forecast.condition
    {| Forecast.date := "2024-05-02"; Forecast.maxTemp := Undefined;
       Forecast.minTemp := Undefined; Forecast.precipitation := Undefined;
       Forecast.windSpeed := Num (Fin 7); Forecast.condition := "Clear" |}
  = "Clear"%string.
Proof.
  apply (forecast_day_past_the_data
           (Num (Fin 30) :: nil) (Num (Fin 2) :: nil) (Num (Fin 0) :: nil)
           (Num (Fin 5) :: Num (Fin 7) :: nil)
           ("2024-05-01" :: "2024-05-02" :: nil)%string
           _ 1%nat _ eq_refl eq_refl); cbn; lia.
Defined.


(** ** The export *)

Section ExportProperties.

Import JSString DataExport.
Local Open Scope string_scope.

Variable numberToString : number -> string.
Variable stringify : list ExportRow -> string.

Lemma read_quoted_body_escape (s rest : string) :
  (forall r, rest <> String quote r) ->
  read_quoted_body (escape_quotes s ++ String quote rest) = Some (s, rest).
Proof.
  intro Hrest. induction s as [ | c s IH].
  - cbn. destruct rest as [ | d r]; [reflexivity|].
    destruct (Ascii.eqb d quote) eqn:E; [|reflexivity].
    apply Ascii.eqb_eq in E. subst d. now destruct (Hrest r).
  - unfold escape_quotes in *. cbn [replace_all_char].
    destruct (Ascii.eqb c quote) eqn:E.
    + apply Ascii.eqb_eq in E. subst c. cbn. now rewrite IH.
    + cbn. rewrite E. now rewrite IH.
Qed.

(** X14. Reading the first field of an exported CSV row back gives the
    location exactly, whatever quotes, commas or line breaks it holds,
    and leaves the other six fields. *)
Theorem csvRow_location_round_trip (row : ExportRow) :
  read_quoted (csvRow numberToString row)
  = Some (location row, csvRowTail numberToString row).
Proof.
  unfold csvRow, read_quoted. rewrite Ascii.eqb_refl.
  apply read_quoted_body_escape.
  intros r H. unfold csvRowTail in H. cbn in H. discriminate H.
Qed.

(** X15. A reading of zero is exported like a missing one: the row of an
    entry whose actual value is 0, [null], [undefined] or [NaN] is the row
    of the same entry without an actual value. *)
Theorem falsy_reading_exported_blank
  (loc d c : string) (p : number) (s : Severity) (u : option string)
  (v : value) :
  truthy v = false ->
  csvRow numberToString
    {| location := loc; date := d; condition := c; probability := p;
       severity := s; actualValue := Some v; row_unit := u |}
  = csvRow numberToString
      {| location := loc; date := d; condition := c; probability := p;
         severity := s; actualValue := None; row_unit := u |}.
Proof.
  intro H. unfold csvRow, csvRowTail. cbn [actualValue actualValueText].
  now rewrite H.
Qed.

Lemma truthy_zero (q : Q) : q == 0 -> truthy (Num (Fin q)) = false.
Proof.
  intro H. cbn. apply negb_false_iff. now apply Qeq_bool_iff.
Qed.


End ExportProperties.

Lemma falsy_reading_exported_blank_witness :
  DataExport.csvRow (fun _ => "n"%string)
    {| DataExport.location := "Paris"%string; DataExport.date := "2024-05-01"%string;
       DataExport.condition := "Rainy"%string; DataExport.probability := Fin 10;
       DataExport.severity := low; DataExport.actualValue := Some (Num (Fin 0));
       DataExport.row_unit := Some "mm"%string |}
  = DataExport.csvRow (fun _ => "n"%string)
      {| DataExport.location := "Paris"%string; DataExport.date := "2024-05-01"%string;
         DataExport.condition := "Rainy"%string; DataExport.probability := Fin 10;
         DataExport.severity := low; DataExport.actualValue := None;
         DataExport.row_unit := Some "mm"%string |}.
Proof.
  apply (falsy_reading_exported_blank (fun _ => "n"%string)
           "Paris"%string "2024-05-01"%string "Rainy"%string (Fin 10) low
           (Some "mm"%string) (Num (Fin 0))).
  reflexivity.
Defined.

(** ** The handlers *)

Section HandlerProperties.

Import JSString DataExport Handlers.
Local Open Scope string_scope.


Lemma base_scores_without_data (maxTemp minTemp rain wind : value) :
  missing maxTemp = true -> missing minTemp = true ->
  missing rain = true -> missing wind = true ->
  fetchWeather_scores maxTemp minTemp rain wind
  = {| hotProb := Fin 10; coldProb := Fin 10; wetProb := Fin 10;
       windyProb := Fin 10; stormProb := Fin 5; uncomfortableProb := Fin 12 |}.
Proof.
  intros Ha Hb Hc Hd. unfold fetchWeather_scores.
  rewrite !(calculateProbability_missing _ _ _ _ _ Ha),
          !(calculateProbability_missing _ _ _ _ _ Hb),
          !(calculateProbability_missing _ _ _ _ _ Hc),
          !(calculateProbability_missing _ _ _ _ _ Hd).
  rewrite (storm_score_missing rain wind (or_introl Hc)). reflexivity.
Qed.

(** X18. An answer without usable readings is still a success: when the
    four arrays are there and their first entries are missing (absent,
    [null] or [NaN]), [fetchWeather] shows the success toast and six
    entries at the base scores 10, 10, 10, 10, 5 and 12, all of severity
    low. *)
Theorem fetchWeather_without_readings
  (datePPP : string) (data : WeatherJson) (st : State)
  (maxTemp minTemp rain wind : value) :
  error data = false ->
  readings data = Some (maxTemp, minTemp, rain, wind) ->
  missing maxTemp = true -> missing minTemp = true ->
  missing rain = true -> missing wind = true ->
  let st' := fetchWeather datePPP (resolved data) st in
  map (fun i => WeatherDashboard.probability (item i)) (weatherData st')
  = Fin 10 :: Fin 10 :: Fin 10 :: Fin 10 :: Fin 5 :: Fin 12 :: nil /\
  Forall (fun i => WeatherDashboard.severity (item i) = low) (weatherData st') /\
  toasts st'
  = (toasts st ++ toast_success ("Weather data loaded for " ++ datePPP) :: nil)%list.
Proof.
  intros E R Ha Hb Hc Hd st'. subst st'. unfold fetchWeather.
  rewrite E, R. cbn [weatherData setIsLoading toast setWeatherData toasts].
  unfold fetchWeather_items, fetchWeather_processed.
  rewrite (base_scores_without_data _ _ _ _ Ha Hb Hc Hd).
  repeat split. repeat constructor.
Qed.

Lemma fetchWeather_without_readings_witness :
  let data :=
    {| error := false; reason := "";
       daily := Some {| Forecast.time := None;
                        Forecast.temperature_2m_max := Some nil;
                        Forecast.temperature_2m_min := Some (Null :: nil);
                        Forecast.precipitation_sum := Some nil;
                        Forecast.windspeed_10m_max := Some (Num NaN :: nil) |} |} in
  let st :=
    {| Handlers.location := "Paris"; coords := None; weatherData := nil;
       isLoading := false; forecastData := nil; toasts := nil |} in
  let st' := fetchWeather "May 1st, 2024" (resolved data) st in
  map (fun i => WeatherDashboard.probability (item i)) (weatherData st')
  = Fin 10 :: Fin 10 :: Fin 10 :: Fin 10 :: Fin 5 :: Fin 12 :: nil /\
  Forall (fun i => WeatherDashboard.severity (item i) = low) (weatherData st') /\
  toasts st'
  = (toasts st
     ++ toast_success ("Weather data loaded for " ++ "May 1st, 2024") :: nil)%list.
Proof.
  apply (fetchWeather_without_readings "May 1st, 2024" _ _
           Undefined Null Undefined (Num NaN)); reflexivity.
Defined.

(** X19. [handleSearch] with nothing to search only shows the info toast
    and does not start loading; otherwise it ends with loading off and one
    toast, and the location and coordinates change only when the geocoder
    answers with a hit, to the name and the parsed position of the first
    one.  The entries and the forecast are never touched. *)
Theorem handleSearch_settles
  (parseFloat : string -> number)
  (searchLocation : option string) (response : Fetched (list GeoHit))
  (st : State) :
  let st' := handleSearch parseFloat searchLocation response st in
  let nothing_to_search :=
    (searchLocation = None \/ searchLocation = Some "") /\
    Handlers.location st = "" in
  weatherData st' = weatherData st /\
  forecastData st' = forecastData st /\
  (nothing_to_search ->
   st' = toast (toast_info "Please enter a location to search.") st) /\
  (~ nothing_to_search ->
   isLoading st' = false /\
   (exists t, toasts st' = (toasts st ++ t :: nil)%list) /\
   match response with
   | resolved (hit :: _) =>
       Handlers.location st' = display_name hit /\
       coords st' = Some {| lat := parseFloat (hit_lat hit);
                            lon := parseFloat (hit_lon hit) |}
   | _ =>
       Handlers.location st' = Handlers.location st /\ coords st' = coords st
   end).
Proof.
  intros st' nothing. subst st' nothing. unfold handleSearch.
  set (term := match searchLocation with
               | Some s => if String.eqb s "" then Handlers.location st else s
               | None => Handlers.location st
               end).
  assert (String.eqb term "" = true <->
          (searchLocation = None \/ searchLocation = Some "") /\
          Handlers.location st = "") as Hterm.
  { subst term. rewrite String.eqb_eq. destruct searchLocation as [s | ].
    - destruct (String.eqb s "") eqn:E.
      + apply String.eqb_eq in E. subst s. tauto.
      + apply String.eqb_neq in E. split.
        * intros ->. congruence.
        * intros [[H | H] _]; [discriminate | congruence].
    - tauto. }
  destruct (String.eqb term "") eqn:E.
  - split; [reflexivity|]. split; [reflexivity|]. split.
    + intros _. reflexivity.
    + intro Hn. exfalso. apply Hn. now apply Hterm.
  - assert (~ ((searchLocation = None \/ searchLocation = Some "") /\
               Handlers.location st = "")) as Hn
        by (intro H; apply Hterm in H; discriminate).
    split; [now destruct response as [ | [ | hit rest]]|].
    split; [now destruct response as [ | [ | hit rest]]|].
    split; [intro H; destruct (Hn H)|].
    intros _.
    destruct response as [ | [ | hit rest]]; cbn;
      (split; [reflexivity|]); (split; [eexists; reflexivity|]);
      split; reflexivity.
Qed.

(** X20. [fetchForecast] replaces the forecast only when the answer has
    no error and its days can be built, and then shows no toast; on any
    failure it shows one error toast and keeps the forecast it had.
    Loading, the entries, the location and the coordinates are never
    touched. *)
Theorem fetchForecast_settles (response : Fetched WeatherJson) (st : State) :
  let st' := fetchForecast response st in
  isLoading st' = isLoading st /\
  weatherData st' = weatherData st /\
  Handlers.location st' = Handlers.location st /\
  coords st' = coords st /\
  ((exists message,
       toasts st' = (toasts st ++ toast_error message :: nil)%list) /\
   forecastData st' = forecastData st \/
   toasts st' = toasts st /\
   exists data d days,
     response = resolved data /\ error data = false /\ daily data = Some d /\
     Forecast.forecastDays d = Some days /\ forecastData st' = days).
Proof.
  intro st'. subst st'. unfold fetchForecast.
  destruct response as [ | data].
  - repeat split. left. split; [eexists|]; reflexivity.
  - destruct (error data) eqn:E.
    + repeat split. left. split; [eexists|]; reflexivity.
    + destruct (daily data) as [d | ] eqn:D.
      * destruct (Forecast.forecastDays d) as [days | ] eqn:F.
        -- repeat split. right. split; [reflexivity|].
           exists data, d, days. repeat split; assumption.
        -- repeat split. left. split; [eexists|]; reflexivity.
      * repeat split. left. split; [eexists|]; reflexivity.
Qed.

End HandlerProperties.

(** ** More on the score *)

Section ScoreEdges.

(** X21. A range that is not ordered ([max <= min]) is never interpolated
    and never divides by zero: the score is a step at [min], one bound up
    to it and the other above. *)
Theorem unordered_range_is_a_step (lo hi b m : Q) (v : number) (asc : bool) :
  hi <= lo -> v <> NaN ->
  calculateProbability (Num v) {| min := Fin lo; max := Fin hi |}
    (Fin b) (Fin m) asc
  = if le v (Fin lo) then (if asc then Fin b else Fin m)
    else (if asc then Fin m else Fin b).
Proof.
  intros Hr Hv.
  destruct (le v (Fin lo)) eqn:E.
  - now apply calculateProbability_low_end.
  - destruct v as [ | | | x]; try congruence; try discriminate E.
    + now destruct asc.
    + assert (Qle_bool hi x = true) as G.
      { apply Qle_bool_false in E. apply Qle_bool_iff. lra. }
      cbn in E. unfold calculateProbability, ge. cbn. rewrite E, G.
      now destruct asc.
Qed.

Lemma unordered_range_is_a_step_witness :
  calculateProbability (Num (Fin 30)) {| min := Fin 25; max := Fin 25 |}
    (Fin 10) (Fin 95) true
  = if le (Fin 30) (Fin 25) then Fin 10 else Fin 95.
Proof.
  apply (unordered_range_is_a_step 25 25 10 95 (Fin 30) true).
  - discriminate.
  - discriminate.
Defined.

End ScoreEdges.

(** ** The readings at which a condition turns high *)

Section HighSeverity.















End HighSeverity.
